(** * Terratest helpers: the apply/destroy orchestrator and the SSM accessors

    A shallow embedding of [main.go] (TerraformApply, TerraformDestroyHelper)
    and of [modules/aws/ssm.go] (GetParameter(E), PutParameter(E),
    NewSsmClient(E)), followed by the properties of both.

    Everything these functions do is an effect on the outside world, so
    the embedding is monadic: every call that leaves the package appends an
    event to a chronological trace and takes its result from a description
    of the environment.  Go's [defer] is modelled by an explicit stack of
    pending actions that is unwound, last registered first, when the
    function returns. *)

From Stdlib Require Import ZArith Lia.
From stdpp Require Import base strings list gmap.

Open Scope string_scope.
Open Scope list_scope.

(** ** Go values shared by both files *)

Module Go.

(** A non-nil [error] value; [Error] is its [Error()] method.  A Go
    variable of type [error] is an [option error], [None] being nil. *)
Record error : Type := errorString { Error : string }.

(** The characters that Go's interpreted string literals write as
    backslash-n and that raw literals contain as such. *)
Definition nl : string := String (Ascii.ascii_of_nat 10) EmptyString.
Definition tab : string := String (Ascii.ascii_of_nat 9) EmptyString.

(** [fmt.Errorf] builds an error whose text is the formatted string; the
    callers below pass the text already formatted. *)
Definition fmt_Errorf (text : string) : error := errorString text.

End Go.

Import Go.

(** ** main.go *)

Module Main.

(** [map[string]string] *)
Abbreviation Vars := (gmap string string).

(** [*log.Logger] as returned by [log.NewLogger(name)]. *)
Record Logger : Type := mkLogger { logger_name : string }.

(** The key pair returned by [util.GenerateRSAKeyPair]. *)
Record RSAKeyPair : Type :=
  mkRSAKeyPair { PrivateKey : string; PublicKey : string }.

(** Every call that leaves [main.go], with the arguments it was given. *)
Inductive Event : Type :=
| EvNewLogger (name : string)
| EvGetRandomRegion
| EvUniqueId
| EvLog (logger : Logger) (text : string)
| EvGenerateRSAKeyPair (bits : Z)
| EvCreateEC2KeyPair (region id publicKey : string)
| EvDeleteEC2KeyPair (region id : string)
| EvAssertS3BucketExists (region name : string)
| EvConfigureRemoteState
    (templatePath bucket key region : string) (logger : Logger)
| EvApply (templatePath : string) (vars : Vars) (logger : Logger)
| EvApplyWithRetry (templatePath : string) (vars : Vars) (logger : Logger)
| EvDestroy (templatePath : string) (vars : Vars) (logger : Logger)
| EvStdout (text : string).

(** What the packages [aws], [util] and [terraform] and the two
    package-level constants, none of which is defined in [main.go],
    answer.  Each function is called at most once per run of
    TerraformApply, so a result per argument list describes any
    environment. *)
Record Externals : Type := mkExternals {
  TF_REMOTE_STATE_S3_BUCKET_REGION : string;
  TF_REMOTE_STATE_S3_BUCKET_NAME : string;
  ext_GetRandomRegion : string;
  ext_UniqueId : string;
  ext_GenerateRSAKeyPair : Z -> RSAKeyPair * option error;
  ext_AssertS3BucketExists : string -> string -> option error;
  ext_Apply : string -> Vars -> Logger -> option error;
  ext_ApplyWithRetry : string -> Vars -> Logger -> option error;
  ext_Destroy : string -> Vars -> Logger -> option error
}.

(** *** The effect monad: a chronological trace of events *)

Definition M (A : Type) : Type := list Event -> A * list Event.

Definition ret {A} (a : A) : M A := fun tr => (a, tr).

Definition bind {A B} (m : M A) (k : A -> M B) : M B :=
  fun tr => let (a, tr') := m tr in k a tr'.

Definition emit (e : Event) : M unit := fun tr => (tt, tr ++ [e]).

Declare Scope main_scope.
Delimit Scope main_scope with main.
Notation "x <- m ;; k" := (bind m (fun x => k))
  (at level 100, m at next level, right associativity) : main_scope.
Notation "m ;;; k" := (bind m (fun _ => k))
  (at level 100, right associativity) : main_scope.

(** [run m] executes [m] from the empty trace. *)
Definition run {A} (m : M A) : A * list Event := m [].

(** *** Function bodies with [defer] *)

(** A body threads the stack of deferred calls, most recent first. *)
Definition Body (A : Type) : Type := list (M unit) -> M (A * list (M unit)).

Definition bret {A} (a : A) : Body A := fun ds => ret (a, ds).

Definition bbind {A B} (m : Body A) (k : A -> Body B) : Body B :=
  fun ds => bind (m ds) (fun r => k (fst r) (snd r)).

(** An ordinary call inside a body. *)
Definition call {A} (m : M A) : Body A :=
  fun ds => bind m (fun a => ret (a, ds)).

(** [defer f(args)]: the arguments are already evaluated, the call is
    pushed. *)
Definition defer (m : M unit) : Body unit := fun ds => ret (tt, m :: ds).

Fixpoint run_deferred (ds : list (M unit)) : M unit :=
  match ds with
  | [] => ret tt
  | d :: ds' => bind d (fun _ => run_deferred ds')
  end.

(** A Go function: run the body, then the deferred calls in reverse
    order of registration, then hand the result (fixed by the [return]
    statement, the results being unnamed) to the caller. *)
Definition func {A} (b : Body A) : M A :=
  bind (b []) (fun r => bind (run_deferred (snd r)) (fun _ => ret (fst r))).

Declare Scope body_scope.
Delimit Scope body_scope with body.
Notation "x <- m ;; k" := (bbind m (fun x => k))
  (at level 100, m at next level, right associativity) : body_scope.
Notation "m ;;; k" := (bbind m (fun _ => k))
  (at level 100, right associativity) : body_scope.

(** *** The calls into other packages *)

Section Calls.
Variable env : Externals.

Definition log_NewLogger (name : string) : M Logger :=
  (emit (EvNewLogger name) ;;; ret (mkLogger name))%main.

(** [logger.Printf] with the text already formatted. *)
Definition logger_Printf (logger : Logger) (text : string) : M unit :=
  emit (EvLog logger text).

Definition logger_Println (logger : Logger) (text : string) : M unit :=
  emit (EvLog logger (text +:+ nl)).

Definition aws_GetRandomRegion : M string :=
  (emit EvGetRandomRegion ;;; ret (ext_GetRandomRegion env))%main.

Definition util_UniqueId : M string :=
  (emit EvUniqueId ;;; ret (ext_UniqueId env))%main.

Definition util_GenerateRSAKeyPair (bits : Z)
  : M (RSAKeyPair * option error) :=
  (emit (EvGenerateRSAKeyPair bits) ;;;
   ret (ext_GenerateRSAKeyPair env bits))%main.

Definition aws_CreateEC2KeyPair (region id publicKey : string) : M unit :=
  emit (EvCreateEC2KeyPair region id publicKey).

Definition aws_DeleteEC2KeyPair (region id : string) : M unit :=
  emit (EvDeleteEC2KeyPair region id).

Definition aws_AssertS3BucketExists (region name : string)
  : M (option error) :=
  (emit (EvAssertS3BucketExists region name) ;;;
   ret (ext_AssertS3BucketExists env region name))%main.

Definition terraform_ConfigureRemoteState
    (templatePath bucket key region : string) (logger : Logger) : M unit :=
  emit (EvConfigureRemoteState templatePath bucket key region logger).

Definition terraform_Apply
    (templatePath : string) (vars : Vars) (logger : Logger)
  : M (option error) :=
  (emit (EvApply templatePath vars logger) ;;;
   ret (ext_Apply env templatePath vars logger))%main.

Definition terraform_ApplyWithRetry
    (templatePath : string) (vars : Vars) (logger : Logger)
  : M (option error) :=
  (emit (EvApplyWithRetry templatePath vars logger) ;;;
   ret (ext_ApplyWithRetry env templatePath vars logger))%main.

Definition terraform_Destroy
    (templatePath : string) (vars : Vars) (logger : Logger)
  : M (option error) :=
  (emit (EvDestroy templatePath vars logger) ;;;
   ret (ext_Destroy env templatePath vars logger))%main.

Definition fmt_Printf (text : string) : M unit := emit (EvStdout text).

(** *** The texts that main.go formats *)

Definition random_values_text (region id : string) : string :=
  "Random values selected. Region = " +:+ region +:+ ", Id = " +:+ id
  +:+ nl.

Definition keypair_error_text (e : error) : string :=
  "Failed to generate keypair: " +:+ Error e +:+ nl.

Definition bucket_error_text : string :=
  "Test failed because the S3 Bucket '"
  +:+ TF_REMOTE_STATE_S3_BUCKET_NAME env
  +:+ "' does not exist in the '"
  +:+ TF_REMOTE_STATE_S3_BUCKET_REGION env
  +:+ "' region." +:+ nl.

Definition apply_error_text (e : error) : string :=
  "Failed to terraform apply: " +:+ Error e +:+ nl.

(** The raw (back-quoted) literal of TerraformDestroyHelper: its line
    breaks and tabs are real, its backslash-n is two characters. *)
Definition destroy_warning_text
    (templatePath testName : string) (e : error) : string :=
  "Failed to terraform destroy." +:+ nl
  +:+ tab +:+ tab
  +:+ "** WARNING ** Terraform destroy has failed which means you must manually delete all resources created by"
  +:+ nl
  +:+ tab +:+ tab +:+ "the terraform template at " +:+ templatePath
  +:+ ".  '" +:+ testName +:+ "' was used for the test name." +:+ nl
  +:+ nl
  +:+ tab +:+ tab +:+ "Scroll up to see the AWS region." +:+ nl
  +:+ nl
  +:+ tab +:+ tab +:+ "Official Error Message:\n" +:+ nl
  +:+ tab +:+ tab +:+ Error e +:+ "\n".

(** *** TerraformDestroyHelper *)

Definition TerraformDestroyHelper
    (testName templatePath : string) (vars : Vars) : M unit :=
  (logger <- log_NewLogger testName ;;
   err <- terraform_Destroy templatePath vars logger ;;
   match err with
   | Some e => fmt_Printf (destroy_warning_text templatePath testName e)
   | None => ret tt
   end)%main.

(** *** TerraformApply *)

Definition TerraformApply_body
    (testName templatePath : string) (vars : Vars)
    (attemptTerraformRetry : bool) : Body (option error) :=
  (logger <- call (log_NewLogger testName) ;;
   region <- call aws_GetRandomRegion ;;
   id <- call util_UniqueId ;;
   call (logger_Printf logger (random_values_text region id)) ;;;
   r <- call (util_GenerateRSAKeyPair 2048%Z) ;;
   let keyPair := fst r in
   match snd r with
   | Some e => bret (Some (fmt_Errorf (keypair_error_text e)))
   | None =>
     call (logger_Println logger
             "Generated keypair. Printing out private key...") ;;;
     call (logger_Printf logger (PrivateKey keyPair)) ;;;
     call (logger_Println logger "Creating EC2 Keypair...") ;;;
     call (aws_CreateEC2KeyPair region id (PublicKey keyPair)) ;;;
     defer (aws_DeleteEC2KeyPair region id) ;;;
     err <- call (aws_AssertS3BucketExists
                    (TF_REMOTE_STATE_S3_BUCKET_REGION env)
                    (TF_REMOTE_STATE_S3_BUCKET_NAME env)) ;;
     match err with
     | Some _ => bret (Some (fmt_Errorf bucket_error_text))
     | None =>
       call (terraform_ConfigureRemoteState templatePath
               (TF_REMOTE_STATE_S3_BUCKET_NAME env)
               (id +:+ "/main.tf")
               (TF_REMOTE_STATE_S3_BUCKET_REGION env) logger) ;;;
       call (logger_Println logger "Running terraform apply...") ;;;
       err <- (if attemptTerraformRetry
               then call (terraform_ApplyWithRetry templatePath vars logger)
               else call (terraform_Apply templatePath vars logger)) ;;
       defer (TerraformDestroyHelper testName templatePath vars) ;;;
       match err with
       | Some e => bret (Some (fmt_Errorf (apply_error_text e)))
       | None => bret None
       end
     end
   end)%body.

Definition TerraformApply
    (testName templatePath : string) (vars : Vars)
    (attemptTerraformRetry : bool) : M (option error) :=
  func (TerraformApply_body testName templatePath vars
          attemptTerraformRetry).

End Calls.

(** *** Observations on traces *)

Definition is_apply (e : Event) : bool :=
  match e with
  | EvApply _ _ _ | EvApplyWithRetry _ _ _ => true
  | _ => false
  end.

Definition is_destroy (e : Event) : bool :=
  match e with EvDestroy _ _ _ => true | _ => false end.

Definition is_create_keypair (e : Event) : bool :=
  match e with EvCreateEC2KeyPair _ _ _ => true | _ => false end.

Definition is_delete_keypair (e : Event) : bool :=
  match e with EvDeleteEC2KeyPair _ _ => true | _ => false end.

Definition is_bucket_check (e : Event) : bool :=
  match e with EvAssertS3BucketExists _ _ => true | _ => false end.

Definition is_configure (e : Event) : bool :=
  match e with EvConfigureRemoteState _ _ _ _ _ => true | _ => false end.

(** The calls that reach the cloud provider, the remote-state bucket or
    the terraform binary. *)
Definition is_remote (e : Event) : bool :=
  is_create_keypair e || is_delete_keypair e || is_bucket_check e
  || is_configure e || is_apply e || is_destroy e.

(** Number of events of a kind in a trace. *)
Definition count (p : Event -> bool) (tr : list Event) : nat :=
  length (List.filter p tr).

(** The trace and the returned error of one run of TerraformApply. *)
Definition trace_of (env : Externals) (testName templatePath : string)
    (vars : Vars) (retry : bool) : list Event :=
  snd (run (TerraformApply env testName templatePath vars retry)).

Definition result_of (env : Externals) (testName templatePath : string)
    (vars : Vars) (retry : bool) : option error :=
  fst (run (TerraformApply env testName templatePath vars retry)).

(** *** The course of a run *)

Section Observed.
Variable env : Externals.
Variables (testName templatePath : string) (vars : Vars).

Let logger := mkLogger testName.
Let region := ext_GetRandomRegion env.
Let id := ext_UniqueId env.
Let keyPair := fst (ext_GenerateRSAKeyPair env 2048%Z).
Let bucketRegion := TF_REMOTE_STATE_S3_BUCKET_REGION env.
Let bucketName := TF_REMOTE_STATE_S3_BUCKET_NAME env.

(** The outcomes of the three fallible steps in this environment. *)
Definition keygen_result : option error :=
  snd (ext_GenerateRSAKeyPair env 2048%Z).

Definition bucket_result : option error :=
  ext_AssertS3BucketExists env bucketRegion bucketName.

Definition apply_result (retry : bool) : option error :=
  if retry then ext_ApplyWithRetry env templatePath vars logger
  else ext_Apply env templatePath vars logger.

(** The bucket check is reached and answers with an error. *)
Definition bucket_check_fails : Prop :=
  keygen_result = None /\ exists e, bucket_result = Some e.

(** The segments of a run, in the order in which they happen. *)
Definition setup_events : list Event :=
  [ EvNewLogger testName; EvGetRandomRegion; EvUniqueId;
    EvLog logger (random_values_text region id);
    EvGenerateRSAKeyPair 2048%Z ].

Definition keypair_events : list Event :=
  [ EvLog logger ("Generated keypair. Printing out private key..." +:+ nl);
    EvLog logger (PrivateKey keyPair);
    EvLog logger ("Creating EC2 Keypair..." +:+ nl);
    EvCreateEC2KeyPair region id (PublicKey keyPair);
    EvAssertS3BucketExists bucketRegion bucketName ].

Definition apply_event (retry : bool) : Event :=
  if retry then EvApplyWithRetry templatePath vars logger
  else EvApply templatePath vars logger.

Definition configure_events : list Event :=
  [ EvConfigureRemoteState templatePath bucketName (id +:+ "/main.tf")
      bucketRegion logger;
    EvLog logger ("Running terraform apply..." +:+ nl) ].

Definition destroy_events : list Event :=
  [ EvNewLogger testName; EvDestroy templatePath vars logger ]
  ++ match ext_Destroy env templatePath vars logger with
     | Some e => [ EvStdout (destroy_warning_text templatePath testName e) ]
     | None => []
     end.

Definition cleanup_events : list Event := [ EvDeleteEC2KeyPair region id ].

End Observed.

(** The error that the spec promises for the apply phase, from the
    outcomes of its three fallible steps: key generation, the
    remote-state bucket check and the apply attempt. *)
Definition apply_phase_error (bucketName bucketRegion : string)
    (keygen bucket apply : option error) : option error :=
  match keygen with
  | Some e =>
    Some (errorString ("Failed to generate keypair: " +:+ Error e +:+ nl))
  | None =>
    match bucket with
    | Some _ =>
      Some (errorString
              ("Test failed because the S3 Bucket '" +:+ bucketName
               +:+ "' does not exist in the '" +:+ bucketRegion
               +:+ "' region." +:+ nl))
    | None =>
      match apply with
      | Some e =>
        Some (errorString ("Failed to terraform apply: " +:+ Error e +:+ nl))
      | None => None
      end
    end
  end.

(** The environment [env] with another outcome of [terraform.Destroy]. *)
Definition with_Destroy
    (destroy : string -> Vars -> Logger -> option error)
    (env : Externals) : Externals :=
  {| TF_REMOTE_STATE_S3_BUCKET_REGION := TF_REMOTE_STATE_S3_BUCKET_REGION env;
     TF_REMOTE_STATE_S3_BUCKET_NAME := TF_REMOTE_STATE_S3_BUCKET_NAME env;
     ext_GetRandomRegion := ext_GetRandomRegion env;
     ext_UniqueId := ext_UniqueId env;
     ext_GenerateRSAKeyPair := ext_GenerateRSAKeyPair env;
     ext_AssertS3BucketExists := ext_AssertS3BucketExists env;
     ext_Apply := ext_Apply env;
     ext_ApplyWithRetry := ext_ApplyWithRetry env;
     ext_Destroy := destroy |}.

(** *** What the properties say about a run *)

(** A run that stopped at the failed key generation: the error names
    the cause, nothing follows the generation call, and nothing remote
    was called. *)
Definition keygen_failure_run (env : Externals)
    (testName templatePath : string) (vars : Vars) (retry : bool)
    (e : error) : Prop :=
  result_of env testName templatePath vars retry
  = Some (errorString ("Failed to generate keypair: " +:+ Error e +:+ nl))
  /\ last (trace_of env testName templatePath vars retry)
     = Some (EvGenerateRSAKeyPair 2048%Z)
  /\ count is_remote (trace_of env testName templatePath vars retry) = 0.

(** No apply was attempted and no key pair was created. *)
Definition no_apply_no_keypair (tr : list Event) : Prop :=
  count is_apply tr = 0 /\ count is_create_keypair tr = 0.

(** A run that stopped at the failed bucket check: nothing of the apply
    phase happened; the key pair was created just before the check and
    deleted right after it, and the run ends there. *)
Definition bucket_failure_run (env : Externals)
    (testName templatePath : string) (vars : Vars) (retry : bool) : Prop :=
  count is_apply (trace_of env testName templatePath vars retry) = 0
  /\ count is_configure (trace_of env testName templatePath vars retry) = 0
  /\ count is_destroy (trace_of env testName templatePath vars retry) = 0
  /\ count is_create_keypair
       (trace_of env testName templatePath vars retry) = 1
  /\ count is_delete_keypair
       (trace_of env testName templatePath vars retry) = 1
  /\ exists pre,
       trace_of env testName templatePath vars retry
       = pre ++ [ EvCreateEC2KeyPair (ext_GetRandomRegion env)
                    (ext_UniqueId env)
                    (PublicKey (fst (ext_GenerateRSAKeyPair env 2048%Z)));
                  EvAssertS3BucketExists
                    (TF_REMOTE_STATE_S3_BUCKET_REGION env)
                    (TF_REMOTE_STATE_S3_BUCKET_NAME env);
                  EvDeleteEC2KeyPair (ext_GetRandomRegion env)
                    (ext_UniqueId env) ].

(** The trace has one apply attempt, no destroy before it and exactly
    one destroy after it. *)
Definition destroyed_once_after_apply (tr : list Event) : Prop :=
  exists pre a post,
    tr = pre ++ a :: post
    /\ is_apply a = true
    /\ count is_apply pre = 0 /\ count is_apply post = 0
    /\ count is_destroy pre = 0 /\ count is_destroy post = 1.

(** *** A concrete environment, for examples *)

Definition sample_key : RSAKeyPair := mkRSAKeyPair "PRIVATE" "PUBLIC".

Definition sample_env
    (keygen bucket apply destroy : option error) : Externals :=
  {| TF_REMOTE_STATE_S3_BUCKET_REGION := "us-east-1";
     TF_REMOTE_STATE_S3_BUCKET_NAME := "tf-state";
     ext_GetRandomRegion := "eu-west-1";
     ext_UniqueId := "a1B2c3";
     ext_GenerateRSAKeyPair := fun _ => (sample_key, keygen);
     ext_AssertS3BucketExists := fun _ _ => bucket;
     ext_Apply := fun _ _ _ => apply;
     ext_ApplyWithRetry := fun _ _ _ => apply;
     ext_Destroy := fun _ _ _ => destroy |}.

(** *** Further observations on runs *)

Definition is_plain_apply (e : Event) : bool :=
  match e with EvApply _ _ _ => true | _ => false end.

Definition is_retry_apply (e : Event) : bool :=
  match e with EvApplyWithRetry _ _ _ => true | _ => false end.


(** The key pair was created once and deleted once, under the region and
    id of this run, and its deletion is the last call of the run. *)
Definition keypair_cleaned_up (env : Externals) (tr : list Event) : Prop :=
  count is_create_keypair tr = 1
  /\ count is_delete_keypair tr = 1
  /\ exists pre mid,
       tr = pre
            ++ EvCreateEC2KeyPair (ext_GetRandomRegion env) (ext_UniqueId env)
                 (PublicKey (fst (ext_GenerateRSAKeyPair env 2048%Z)))
            :: mid
            ++ [EvDeleteEC2KeyPair (ext_GetRandomRegion env)
                  (ext_UniqueId env)].

(** Teardown mirrors setup: the key pair is created, then the template is
    applied, then destroyed with the same path and variables, then the key
    pair is deleted. *)
Definition teardown_mirrors_setup (env : Externals)
    (testName templatePath : string) (vars : Vars) (retry : bool)
    (tr : list Event) : Prop :=
  exists pre m1 m2 m3,
    tr = pre
         ++ EvCreateEC2KeyPair (ext_GetRandomRegion env) (ext_UniqueId env)
              (PublicKey (fst (ext_GenerateRSAKeyPair env 2048%Z)))
         :: m1
         ++ apply_event testName templatePath vars retry
         :: m2
         ++ EvDestroy templatePath vars (mkLogger testName)
         :: m3
         ++ [EvDeleteEC2KeyPair (ext_GetRandomRegion env) (ext_UniqueId env)].

(** No remote operation was called more than once. *)
Definition each_remote_call_at_most_once (tr : list Event) : Prop :=
  count is_create_keypair tr <= 1
  /\ count is_delete_keypair tr <= 1
  /\ count is_bucket_check tr <= 1
  /\ count is_configure tr <= 1
  /\ count is_apply tr <= 1
  /\ count is_destroy tr <= 1.

(** The private key went to the log, and only the public key to the
    provider. *)
Definition private_key_logged_public_key_uploaded (env : Externals)
    (testName : string) (tr : list Event) : Prop :=
  In (EvLog (mkLogger testName)
        (PrivateKey (fst (ext_GenerateRSAKeyPair env 2048%Z)))) tr
  /\ forall region id key,
       In (EvCreateEC2KeyPair region id key) tr ->
       key = PublicKey (fst (ext_GenerateRSAKeyPair env 2048%Z)).

(** A run whose apply attempt failed with [e]: the error carries the
    cause, and the run still destroyed once and ended by deleting the key
    pair. *)
Definition apply_failure_run (env : Externals)
    (testName templatePath : string) (vars : Vars) (retry : bool)
    (e : error) : Prop :=
  result_of env testName templatePath vars retry
  = Some (errorString ("Failed to terraform apply: " +:+ Error e +:+ nl))
  /\ count is_destroy (trace_of env testName templatePath vars retry) = 1
  /\ last (trace_of env testName templatePath vars retry)
     = Some (EvDeleteEC2KeyPair (ext_GetRandomRegion env) (ext_UniqueId env)).

End Main.

(** ** modules/aws/ssm.go *)

Module Ssm.

(** [*testing.T]: the running test, known by its name. *)
Record testing_T : Type := mkT { test_name : string }.

(** The SDK's request and response structs, with the fields that
    ssm.go sets or reads (every other field keeps its zero value).
    A Go pointer field is an [option], [None] being nil. *)
Record GetParameterInput : Type := mkGetParameterInput {
  gpi_Name : option string;
  gpi_WithDecryption : option bool
}.

Record ssm_Parameter : Type := mkParameter {
  par_Name : option string;
  par_Type : option string;
  par_Value : option string;
  par_Version : option Z
}.

Record GetParameterOutput : Type := mkGetParameterOutput {
  gpo_Parameter : option ssm_Parameter
}.

Record PutParameterInput : Type := mkPutParameterInput {
  ppi_Name : option string;
  ppi_Description : option string;
  ppi_Value : option string;
  ppi_Type : option string
}.

Record PutParameterOutput : Type := mkPutParameterOutput {
  ppo_Version : option Z
}.

(** [aws.String] and [aws.Bool] return a pointer to a copy of their
    argument. *)
Definition aws_String (s : string) : option string := Some s.
Definition aws_Bool (b : bool) : option bool := Some b.

(** What ssm.go relies on without defining it: session creation (a
    function of this package that lives in another file; the credentials
    and configuration it reads are fixed during a run, so it is a
    function of the region) and the SDK client, whose two calls act on
    the state of the remote service. *)
Class SsmApi : Type := {
  World : Type;
  Session : Type;
  Client : Type;
  NewAuthenticatedSession : string -> Session * option error;
  ssm_New : Session -> Client;
  client_GetParameter :
    Client -> GetParameterInput -> World ->
    (option GetParameterOutput * option error) * World;
  client_PutParameter :
    Client -> PutParameterInput -> World ->
    (option PutParameterOutput * option error) * World
}.

(** How a call ends: it returns, or [t.FailNow] stops the goroutine of
    test [t] after the failure [e] was reported, or a nil pointer is
    dereferenced. *)
Inductive Outcome (A : Type) : Type :=
| Returned (a : A)
| FailNow (t : testing_T) (e : error)
| Panic.
Arguments Returned {A} a.
Arguments FailNow {A} t e.
Arguments Panic {A}.

Definition is_panic {A} (o : Outcome A) : bool :=
  match o with Panic => true | _ => false end.

Section Accessors.
Context {api : SsmApi}.

(** The requests handed to the SDK client. *)
Inductive Request : Type :=
| ReqGetParameter (c : Client) (input : GetParameterInput)
| ReqPutParameter (c : Client) (input : PutParameterInput).

(** The remote service and the log of requests, oldest first. *)
Record St : Type := mkSt { world : World; requests : list Request }.

Definition M (A : Type) : Type := St -> Outcome A * St.

Definition ret {A} (a : A) : M A := fun st => (Returned a, st).

Definition bind {A B} (m : M A) (k : A -> M B) : M B :=
  fun st =>
    match m st with
    | (Returned a, st') => k a st'
    | (FailNow t e, st') => (FailNow t e, st')
    | (Panic, st') => (Panic, st')
    end.

Definition panic {A} : M A := fun st => (Panic, st).

(** [*p] *)
Definition deref {A} (p : option A) : M A :=
  match p with
  | Some a => ret a
  | None => panic
  end.

Definition sdk_GetParameter (c : Client) (input : GetParameterInput)
  : M (option GetParameterOutput * option error) :=
  fun st =>
    let (r, w) := client_GetParameter c input (world st) in
    (Returned r, mkSt w (requests st ++ [ReqGetParameter c input])).

Definition sdk_PutParameter (c : Client) (input : PutParameterInput)
  : M (option PutParameterOutput * option error) :=
  fun st =>
    let (r, w) := client_PutParameter c input (world st) in
    (Returned r, mkSt w (requests st ++ [ReqPutParameter c input])).

(** testify's [require.NoError]: nothing on a nil error; otherwise the
    failure is reported and the test stops at once. *)
Definition require_NoError (t : testing_T) (err : option error) : M unit :=
  match err with
  | None => ret tt
  | Some e => fun st => (FailNow t e, st)
  end.

Declare Scope ssm_scope.
Delimit Scope ssm_scope with ssm.
Notation "x <- m ;; k" := (bind m (fun x => k))
  (at level 100, m at next level, right associativity) : ssm_scope.
Notation "m ;;; k" := (bind m (fun _ => k))
  (at level 100, right associativity) : ssm_scope.

(** *** NewSsmClientE, NewSsmClient *)

Definition NewSsmClientE (t : testing_T) (region : string)
  : M (option Client * option error) :=
  let (sess, err) := NewAuthenticatedSession region in
  match err with
  | Some e => ret (None, Some e)
  | None => ret (Some (ssm_New sess), None)
  end.

Definition NewSsmClient (t : testing_T) (region : string)
  : M (option Client) :=
  (r <- NewSsmClientE t region ;;
   require_NoError t (snd r) ;;;
   ret (fst r))%ssm.

(** *** GetParameterE, GetParameter *)

Definition GetParameterE (t : testing_T) (awsRegion keyName : string)
  : M (string * option error) :=
  (r <- NewSsmClientE t awsRegion ;;
   match snd r with
   | Some e => ret (EmptyString, Some e)
   | None =>
     ssmClient <- deref (fst r) ;;
     r <- sdk_GetParameter ssmClient
            {| gpi_Name := aws_String keyName;
               gpi_WithDecryption := aws_Bool true |} ;;
     match snd r with
     | Some e => ret (EmptyString, Some e)
     | None =>
       resp <- deref (fst r) ;;
       parameter <- deref (gpo_Parameter resp) ;;
       value <- deref (par_Value parameter) ;;
       ret (value, None)
     end
   end)%ssm.

Definition GetParameter (t : testing_T) (awsRegion keyName : string)
  : M string :=
  (r <- GetParameterE t awsRegion keyName ;;
   require_NoError t (snd r) ;;;
   ret (fst r))%ssm.

(** *** PutParameterE, PutParameter *)

Definition PutParameterE (t : testing_T)
    (awsRegion keyName keyDescription keyValue : string)
  : M (Z * option error) :=
  (r <- NewSsmClientE t awsRegion ;;
   match snd r with
   | Some e => ret (0%Z, Some e)
   | None =>
     ssmClient <- deref (fst r) ;;
     r <- sdk_PutParameter ssmClient
            {| ppi_Name := aws_String keyName;
               ppi_Description := aws_String keyDescription;
               ppi_Value := aws_String keyValue;
               ppi_Type := aws_String "SecureString" |} ;;
     match snd r with
     | Some e => ret (0%Z, Some e)
     | None =>
       resp <- deref (fst r) ;;
       version <- deref (ppo_Version resp) ;;
       ret (version, None)
     end
   end)%ssm.

Definition PutParameter (t : testing_T)
    (awsRegion keyName keyDescription keyValue : string) : M Z :=
  (r <- PutParameterE t awsRegion keyName keyDescription keyValue ;;
   require_NoError t (snd r) ;;;
   ret (fst r))%ssm.

(** *** Observations *)

(** The requests that [m] adds to the log when started in [st]. *)
Definition sent_by {A} (m : M A) (st : St) : list Request :=
  drop (length (requests st)) (requests (snd (m st))).

(** A write marked for encryption at rest. *)
Definition encrypted_write (r : Request) : Prop :=
  match r with
  | ReqPutParameter _ input => ppi_Type input = Some "SecureString"
  | ReqGetParameter _ _ => False
  end.

(** A read that asks for the decrypted value. *)
Definition decrypting_read (r : Request) : Prop :=
  match r with
  | ReqGetParameter _ input => gpi_WithDecryption input = Some true
  | ReqPutParameter _ _ => False
  end.

(** The client that both accessors obtain for a region, and the
    requests they build. *)
Definition get_client (region : string) : Client :=
  ssm_New (fst (NewAuthenticatedSession region)).

Definition get_input (keyName : string) : GetParameterInput :=
  {| gpi_Name := Some keyName; gpi_WithDecryption := Some true |}.

Definition put_input (keyName keyDescription keyValue : string)
  : PutParameterInput :=
  {| ppi_Name := Some keyName;
     ppi_Description := Some keyDescription;
     ppi_Value := Some keyValue;
     ppi_Type := Some "SecureString" |}.

(** The value behind [resp.Parameter] and its [Value], and the version
    behind [resp.Version], where every pointer on the way is non-nil. *)
Definition value_of (resp : option GetParameterOutput) : option string :=
  match resp with
  | Some out =>
    match gpo_Parameter out with
    | Some p => par_Value p
    | None => None
    end
  | None => None
  end.

Definition version_of (resp : option PutParameterOutput) : option Z :=
  match resp with
  | Some out => ppo_Version out
  | None => None
  end.

(** *** Assumptions on the remote service, used by some properties *)

(** A decrypting read that follows a write which the service accepted
    finds the written value. *)
Definition read_after_write : Prop :=
  forall c input w out w' name value,
    client_PutParameter c input w = ((out, None), w') ->
    ppi_Name input = Some name ->
    ppi_Value input = Some value ->
    exists resp p w'',
      client_GetParameter c
        {| gpi_Name := Some name; gpi_WithDecryption := Some true |} w'
      = ((Some resp, None), w'')
      /\ gpo_Parameter resp = Some p
      /\ par_Value p = Some value.



End Accessors.

Arguments St : clear implicits.
Arguments Request : clear implicits.

(** *** A reference parameter service *)

(** A stored parameter of the reference service. *)
Record Stored : Type := mkStored {
  st_value : string;
  st_type : string;
  st_description : option string;
  st_version : Z
}.

(** What a read without decryption shows of an encrypted value. *)
Definition ciphertext (v : string) : string := "AQICAHh:" +:+ v.

Definition ref_get (region : string) (input : GetParameterInput)
    (w : gmap (string * string) Stored)
  : (option GetParameterOutput * option error) * gmap (string * string) Stored :=
  match gpi_Name input with
  | None => ((Some (mkGetParameterOutput None),
              Some (errorString "ValidationException")), w)
  | Some name =>
    match w !! (region, name) with
    | None => ((Some (mkGetParameterOutput None),
                Some (errorString "ParameterNotFound")), w)
    | Some s =>
      let shown :=
        if decide (st_type s = "SecureString")
        then match gpi_WithDecryption input with
             | Some true => st_value s
             | _ => ciphertext (st_value s)
             end
        else st_value s in
      ((Some (mkGetParameterOutput
                (Some (mkParameter (Some name) (Some (st_type s))
                         (Some shown) (Some (st_version s))))),
        None), w)
    end
  end.

Definition ref_put (region : string) (input : PutParameterInput)
    (w : gmap (string * string) Stored)
  : (option PutParameterOutput * option error) * gmap (string * string) Stored :=
  match ppi_Name input, ppi_Value input, ppi_Type input with
  | Some name, Some value, Some ty =>
    let version :=
      match w !! (region, name) with
      | Some old => (st_version old + 1)%Z
      | None => 1%Z
      end in
    ((Some (mkPutParameterOutput (Some version)), None),
     <[(region, name) := mkStored value ty (ppi_Description input) version]> w)
  | _, _, _ => ((Some (mkPutParameterOutput None),
                 Some (errorString "ValidationException")), w)
  end.

(** Modelled from the spec: the remote parameter service, which is not
    part of the sources.  A parameter is created on first store and its
    version incremented on each update; a value stored as an encrypted
    string is shown in clear only to a read that requests decryption.
    A session is its region; the empty region has no session. *)
Definition ref_api : SsmApi :=
  {| World := gmap (string * string) Stored;
     Session := string;
     Client := string;
     NewAuthenticatedSession := fun region =>
       if decide (region = EmptyString)
       then (region, Some (errorString "MissingRegion"))
       else (region, None);
     ssm_New := fun sess => sess;
     client_GetParameter := ref_get;
     client_PutParameter := ref_put |}.

(** A service that answers every request with neither an error nor a
    payload. *)
Definition hollow_api : SsmApi :=
  {| World := unit;
     Session := string;
     Client := string;
     NewAuthenticatedSession := fun region => (region, None);
     ssm_New := fun sess => sess;
     client_GetParameter := fun _ _ w =>
       ((Some (mkGetParameterOutput None), None), w);
     client_PutParameter := fun _ _ w =>
       ((Some (mkPutParameterOutput None), None), w) |}.

Definition ref_start : St ref_api :=
  @mkSt ref_api (∅ : gmap (string * string) Stored) [].

(** The payload that a call returned next to its error, [d] if it did
    not return. *)
Definition payload {S A B : Type} (d : A) (r : Outcome (A * B) * S) : A :=
  match fst r with
  | Returned p => fst p
  | _ => d
  end.

(** A test, and the reference service after one parameter was stored. *)
Definition sample_t : testing_T := mkT "TestSsm".

Definition ref_stored : St ref_api :=
  snd (PutParameterE sample_t "eu-west-1" "db/password" "the password"
         "s3cr3t" ref_start).

(** *** Further observations and assumptions *)

Definition is_fail_now {A} (o : Outcome A) : bool :=
  match o with FailNow _ _ => true | _ => false end.

Section Versions.
Context {api : SsmApi}.

(** A put-parameter response without error carries a version. *)
Definition versions_populated : Prop :=
  forall c input w resp w',
    client_PutParameter c input w = ((resp, None), w') ->
    exists out v, resp = Some out /\ ppo_Version out = Some v.

(** The state in which an accessor leaves the log and the service after
    the SDK answered [r] to [req]. *)
Definition after_request {R : Type} (st : St api) (req : Request api)
    (r : R * World) : St api :=
  mkSt (snd r) (requests st ++ [req]).

End Versions.

End Ssm.

(** * Properties of main.go *)

Module MainProps.
Import Main.

Section Run.
Variable env : Externals.
Variables (testName templatePath : string) (vars : Vars).

(** Symbolic execution of TerraformDestroyHelper from any trace. *)
Lemma TerraformDestroyHelper_exec (tr : list Event) :
  TerraformDestroyHelper env testName templatePath vars tr
  = (tt, tr ++ destroy_events env testName templatePath vars).
Proof.
  unfold TerraformDestroyHelper, destroy_events, log_NewLogger,
    terraform_Destroy, fmt_Printf, bind, emit, ret.
  destruct (ext_Destroy env templatePath vars (mkLogger testName))
    as [e|]; simpl; rewrite <- !app_assoc; reflexivity.
Qed.

(** Symbolic execution of TerraformApply: result and trace in each of
    the four ways a run can go. *)
Lemma TerraformApply_exec (retry : bool) :
  run (TerraformApply env testName templatePath vars retry)
  = match keygen_result env with
    | Some e =>
      (Some (fmt_Errorf (keypair_error_text e)),
       setup_events env testName)
    | None =>
      match bucket_result env with
      | Some _ =>
        (Some (fmt_Errorf (bucket_error_text env)),
         setup_events env testName ++ keypair_events env testName
         ++ cleanup_events env)
      | None =>
        (match apply_result env testName templatePath vars retry with
         | Some e => Some (fmt_Errorf (apply_error_text e))
         | None => None
         end,
         setup_events env testName ++ keypair_events env testName
         ++ configure_events env testName templatePath
         ++ [apply_event testName templatePath vars retry]
         ++ destroy_events env testName templatePath vars
         ++ cleanup_events env)
      end
    end.
Proof.
  unfold keygen_result, bucket_result, apply_result, apply_event,
    setup_events, keypair_events, configure_events, cleanup_events,
    destroy_events.
  cbv [run TerraformApply func TerraformApply_body bbind call defer bret
       bind ret emit log_NewLogger aws_GetRandomRegion util_UniqueId
       logger_Printf logger_Println util_GenerateRSAKeyPair
       aws_CreateEC2KeyPair aws_AssertS3BucketExists
       terraform_ConfigureRemoteState terraform_Apply
       terraform_ApplyWithRetry aws_DeleteEC2KeyPair
       TerraformDestroyHelper terraform_Destroy fmt_Printf].
  cbn [fst snd app].
  destruct (snd (ext_GenerateRSAKeyPair env 2048%Z)) as [e|];
    [reflexivity|].
  cbn [fst snd app].
  destruct (ext_AssertS3BucketExists env
              (TF_REMOTE_STATE_S3_BUCKET_REGION env)
              (TF_REMOTE_STATE_S3_BUCKET_NAME env)) as [e|];
    [reflexivity|].
  destruct retry; cbn [fst snd app];
    destruct (ext_ApplyWithRetry env templatePath vars (mkLogger testName)),
             (ext_Apply env templatePath vars (mkLogger testName));
    cbn [fst snd app run_deferred];
    destruct (ext_Destroy env templatePath vars (mkLogger testName));
    reflexivity.
Qed.

Lemma count_app (p : Event -> bool) (l1 l2 : list Event) :
  count p (l1 ++ l2) = count p l1 + count p l2.
Proof. unfold count. rewrite List.filter_app, length_app. reflexivity. Qed.

Lemma count_destroy_events_destroy :
  count is_destroy (destroy_events env testName templatePath vars) = 1.
Proof.
  unfold destroy_events.
  destruct (ext_Destroy env templatePath vars (mkLogger testName));
    reflexivity.
Qed.

Lemma count_destroy_events_apply :
  count is_apply (destroy_events env testName templatePath vars) = 0.
Proof.
  unfold destroy_events.
  destruct (ext_Destroy env templatePath vars (mkLogger testName));
    reflexivity.
Qed.

End Run.

(** C5.  When key-pair generation fails, TerraformApply returns the
    key-pair error at once: the call to GenerateRSAKeyPair is the last
    event of the run, and no call to CreateEC2KeyPair, DeleteEC2KeyPair,
    the bucket check, ConfigureRemoteState, apply or destroy is made. *)
Theorem keygen_failure_stops_run
    (env : Externals) (testName templatePath : string) (vars : Vars)
    (retry : bool) (e : error) :
  keygen_result env = Some e ->
  keygen_failure_run env testName templatePath vars retry e.
Proof.
  intros Hk. unfold keygen_failure_run, result_of, trace_of.
  rewrite TerraformApply_exec, Hk. cbn [fst snd].
  repeat split; reflexivity.
Qed.

(** A run in which the key generator reports a lack of entropy. *)
Lemma keygen_failure_stops_run_witness :
  keygen_result (sample_env (Some (errorString "no entropy")) None None None)
  = Some (errorString "no entropy")
  /\ keygen_failure_run
       (sample_env (Some (errorString "no entropy")) None None None)
       "TestApply" "templates/vpc" ∅ false (errorString "no entropy").
Proof.
  split; [reflexivity|].
  apply (keygen_failure_stops_run
           (sample_env (Some (errorString "no entropy")) None None None)
           "TestApply" "templates/vpc" ∅ false (errorString "no entropy")).
  reflexivity.
Defined.

(** C1, as amended.  When the remote-state bucket check fails, no
    apply is attempted (no Apply, no ApplyWithRetry, no
    ConfigureRemoteState, no Destroy); the key pair has been created,
    once, immediately before the check, and the deferred
    DeleteEC2KeyPair deletes it immediately after, which ends the run. *)
Theorem bucket_failure_skips_apply
    (env : Externals) (testName templatePath : string) (vars : Vars)
    (retry : bool) :
  bucket_check_fails env ->
  bucket_failure_run env testName templatePath vars retry.
Proof.
  intros [Hk [e Hb]]. unfold bucket_failure_run, trace_of.
  rewrite TerraformApply_exec, Hk, Hb. cbn [snd].
  repeat split; try reflexivity.
  exists (setup_events env testName
          ++ firstn 3 (keypair_events env testName)).
  reflexivity.
Qed.

(** A run in which the bucket is missing. *)
Lemma bucket_failure_skips_apply_witness :
  bucket_check_fails
    (sample_env None (Some (errorString "NoSuchBucket")) None None)
  /\ bucket_failure_run
       (sample_env None (Some (errorString "NoSuchBucket")) None None)
       "TestApply" "templates/vpc" ∅ true.
Proof.
  split.
  - split; [reflexivity | eexists; reflexivity].
  - apply (bucket_failure_skips_apply
             (sample_env None (Some (errorString "NoSuchBucket")) None None)
             "TestApply" "templates/vpc" ∅ true).
    split; [reflexivity | eexists; reflexivity].
Defined.

(** C1, as stated, fails: here the bucket check fails, yet
    CreateEC2KeyPair has been called. *)
Lemma bucket_failure_keypair_created :
  bucket_check_fails
    (sample_env None (Some (errorString "NoSuchBucket")) None None)
  /\ ~ no_apply_no_keypair
        (trace_of
           (sample_env None (Some (errorString "NoSuchBucket")) None None)
           "TestApply" "templates/vpc" ∅ false).
Proof.
  split.
  - split; [reflexivity | eexists; reflexivity].
  - intros [_ Hc]. vm_compute in Hc. discriminate Hc.
Qed.

(** C3.  In every run of TerraformApply in which an apply attempt is
    made, terraform.Destroy is called exactly once, after the attempt,
    whether the attempt succeeded or failed. *)
Theorem destroy_once_per_apply
    (env : Externals) (testName templatePath : string) (vars : Vars)
    (retry : bool) :
  0 < count is_apply (trace_of env testName templatePath vars retry) ->
  destroyed_once_after_apply
    (trace_of env testName templatePath vars retry).
Proof.
  unfold trace_of. rewrite TerraformApply_exec.
  destruct (keygen_result env) as [e|]; cbn [snd].
  { intros H. exfalso. revert H. cbn. lia. }
  destruct (bucket_result env) as [e|]; cbn [snd].
  { intros H. exfalso. revert H. cbn. lia. }
  intros _.
  exists (setup_events env testName ++ keypair_events env testName
          ++ configure_events env testName templatePath),
         (apply_event testName templatePath vars retry),
         (destroy_events env testName templatePath vars
          ++ cleanup_events env).
  split; [rewrite <- !app_assoc; reflexivity|].
  split; [destruct retry; reflexivity|].
  split; [reflexivity|].
  split; [rewrite count_app, count_destroy_events_apply; reflexivity|].
  split; [reflexivity|].
  rewrite count_app, count_destroy_events_destroy. reflexivity.
Qed.

(** A run with retry in which both the apply and the destroy fail. *)
Lemma destroy_once_per_apply_witness :
  0 < count is_apply
        (trace_of (sample_env None None (Some (errorString "exit status 1"))
                     (Some (errorString "timeout")))
           "TestApply" "templates/vpc" ∅ true)
  /\ destroyed_once_after_apply
       (trace_of (sample_env None None (Some (errorString "exit status 1"))
                    (Some (errorString "timeout")))
          "TestApply" "templates/vpc" ∅ true).
Proof.
  split; [vm_compute; lia|].
  apply (destroy_once_per_apply
           (sample_env None None (Some (errorString "exit status 1"))
              (Some (errorString "timeout")))
           "TestApply" "templates/vpc" ∅ true).
  vm_compute; lia.
Defined.

(** C9.  Whatever error the bucket check returns, TerraformApply
    returns the same fixed message, which names the bucket and its
    region only; the text of the underlying error is not part of it. *)
Theorem bucket_error_masks_cause
    (env : Externals) (testName templatePath : string) (vars : Vars)
    (retry : bool) (cause : error) :
  keygen_result env = None ->
  bucket_result env = Some cause ->
  result_of env testName templatePath vars retry
  = Some (errorString
            ("Test failed because the S3 Bucket '"
             +:+ TF_REMOTE_STATE_S3_BUCKET_NAME env
             +:+ "' does not exist in the '"
             +:+ TF_REMOTE_STATE_S3_BUCKET_REGION env
             +:+ "' region." +:+ nl)).
Proof.
  intros Hk Hb. unfold result_of.
  rewrite TerraformApply_exec, Hk, Hb. reflexivity.
Qed.

(** A run in which the bucket check fails on the network, not on the bucket. *)
Lemma bucket_error_masks_cause_witness :
  keygen_result
    (sample_env None (Some (errorString "RequestError: dial tcp: timeout"))
       None None) = None
  /\ bucket_result
       (sample_env None (Some (errorString "RequestError: dial tcp: timeout"))
          None None)
     = Some (errorString "RequestError: dial tcp: timeout")
  /\ result_of
       (sample_env None (Some (errorString "RequestError: dial tcp: timeout"))
          None None) "TestApply" "templates/vpc" ∅ false
     = Some (errorString
               ("Test failed because the S3 Bucket 'tf-state' does not exist in the 'us-east-1' region."
                +:+ nl)).
Proof.
  split; [reflexivity|]. split; [reflexivity|].
  apply (bucket_error_masks_cause
           (sample_env None
              (Some (errorString "RequestError: dial tcp: timeout"))
              None None)
           "TestApply" "templates/vpc" ∅ false
           (errorString "RequestError: dial tcp: timeout"));
    reflexivity.
Defined.

(** C2.  The error that TerraformApply returns is the one fixed by key
    generation, the bucket check and the apply attempt; replacing the
    outcome of terraform.Destroy by any other leaves it unchanged; and
    TerraformDestroyHelper always returns to its caller, having called
    Destroy once and, if that failed, printed the warning with the
    template path, the test name and the error text. *)
Theorem destroy_failure_not_propagated
    (env : Externals) (testName templatePath : string) (vars : Vars)
    (retry : bool) :
  result_of env testName templatePath vars retry
  = apply_phase_error
      (TF_REMOTE_STATE_S3_BUCKET_NAME env)
      (TF_REMOTE_STATE_S3_BUCKET_REGION env)
      (keygen_result env) (bucket_result env)
      (apply_result env testName templatePath vars retry)
  /\ (forall destroy,
        result_of (with_Destroy destroy env) testName templatePath vars retry
        = result_of env testName templatePath vars retry)
  /\ (forall tr,
        TerraformDestroyHelper env testName templatePath vars tr
        = (tt, tr ++ [ EvNewLogger testName;
                       EvDestroy templatePath vars (mkLogger testName) ]
                  ++ match ext_Destroy env templatePath vars
                             (mkLogger testName) with
                     | Some e =>
                       [ EvStdout
                           (destroy_warning_text templatePath testName e) ]
                     | None => []
                     end)).
Proof.
  assert (Hres : forall env',
    result_of env' testName templatePath vars retry
    = apply_phase_error
        (TF_REMOTE_STATE_S3_BUCKET_NAME env')
        (TF_REMOTE_STATE_S3_BUCKET_REGION env')
        (keygen_result env') (bucket_result env')
        (apply_result env' testName templatePath vars retry)).
  { intros env'. unfold result_of. rewrite TerraformApply_exec.
    unfold apply_phase_error.
    destruct (keygen_result env'); [reflexivity|].
    destruct (bucket_result env'); [reflexivity|].
    destruct (apply_result env' testName templatePath vars retry);
      reflexivity. }
  split; [apply Hres|]. split.
  - intros destroy. rewrite !Hres. reflexivity.
  - intros tr. apply TerraformDestroyHelper_exec.
Qed.

(** ** Further properties of TerraformApply *)

(** Unfolds a run into its segments and decides the destroy outcome. *)
Ltac run_cases env testName templatePath vars :=
  unfold setup_events, keypair_events, configure_events, destroy_events,
    cleanup_events;
  destruct (ext_Destroy env templatePath vars (mkLogger testName)).

(** X1.  TerraformApply returns nil exactly when key generation, the
    bucket check and the apply attempt all succeed. *)
Theorem nil_result_iff_all_succeed
    (env : Externals) (testName templatePath : string) (vars : Vars)
    (retry : bool) :
  result_of env testName templatePath vars retry = None
  <-> keygen_result env = None
      /\ bucket_result env = None
      /\ apply_result env testName templatePath vars retry = None.
Proof.
  unfold result_of. rewrite TerraformApply_exec.
  destruct (keygen_result env) as [e|]; cbn [fst].
  { split; [discriminate | intros [H _]; discriminate H]. }
  destruct (bucket_result env) as [e|]; cbn [fst].
  { split; [discriminate | intros (_ & H & _); discriminate H]. }
  destruct (apply_result env testName templatePath vars retry) as [e|].
  - split; [discriminate | intros (_ & _ & H); discriminate H].
  - split; auto.
Qed.

(** X2.  Once a key pair has been generated, every run creates the EC2
    key pair exactly once and deletes it exactly once, under the same
    region and id, and the deletion is the last call of the run, whether
    the bucket check and the apply succeed or not. *)
Theorem keypair_always_cleaned_up
    (env : Externals) (testName templatePath : string) (vars : Vars)
    (retry : bool) :
  keygen_result env = None ->
  keypair_cleaned_up env (trace_of env testName templatePath vars retry).
Proof.
  intros Hk. unfold keypair_cleaned_up, trace_of.
  rewrite TerraformApply_exec, Hk.
  destruct (bucket_result env) as [e|]; cbn [snd].
  - split; [reflexivity|]. split; [reflexivity|].
    exists (setup_events env testName
            ++ firstn 3 (keypair_events env testName)),
           [EvAssertS3BucketExists (TF_REMOTE_STATE_S3_BUCKET_REGION env)
              (TF_REMOTE_STATE_S3_BUCKET_NAME env)].
    reflexivity.
  - split; [run_cases env testName templatePath vars; destruct retry;
            reflexivity|].
    split; [run_cases env testName templatePath vars; destruct retry;
            reflexivity|].
    exists (setup_events env testName
            ++ firstn 3 (keypair_events env testName)),
           (skipn 4 (keypair_events env testName)
            ++ configure_events env testName templatePath
            ++ [apply_event testName templatePath vars retry]
            ++ destroy_events env testName templatePath vars).
    run_cases env testName templatePath vars; reflexivity.
Qed.

(** A run in which the apply fails. *)
Lemma keypair_always_cleaned_up_witness :
  keygen_result (sample_env None None (Some (errorString "exit status 1")) None)
  = None
  /\ keypair_cleaned_up
       (sample_env None None (Some (errorString "exit status 1")) None)
       (trace_of
          (sample_env None None (Some (errorString "exit status 1")) None)
          "TestApply" "templates/vpc" ∅ false).
Proof.
  split; [reflexivity|].
  apply (keypair_always_cleaned_up
           (sample_env None None (Some (errorString "exit status 1")) None)
           "TestApply" "templates/vpc" ∅ false).
  reflexivity.
Defined.

(** X3.  When key generation and the bucket check succeed, the run goes
    through CreateEC2KeyPair, the apply attempt, Destroy and
    DeleteEC2KeyPair in this order; Destroy receives the template path and
    the variables of the apply, DeleteEC2KeyPair the region and id of the
    creation. *)
Theorem teardown_in_reverse_order
    (env : Externals) (testName templatePath : string) (vars : Vars)
    (retry : bool) :
  keygen_result env = None ->
  bucket_result env = None ->
  teardown_mirrors_setup env testName templatePath vars retry
    (trace_of env testName templatePath vars retry).
Proof.
  intros Hk Hb. unfold teardown_mirrors_setup, trace_of.
  rewrite TerraformApply_exec, Hk, Hb. cbn [snd].
  exists (setup_events env testName
          ++ firstn 3 (keypair_events env testName)),
         (skipn 4 (keypair_events env testName)
          ++ configure_events env testName templatePath),
         [EvNewLogger testName],
         (skipn 2 (destroy_events env testName templatePath vars)).
  run_cases env testName templatePath vars; reflexivity.
Qed.

(** A successful run with retry. *)
Lemma teardown_in_reverse_order_witness :
  keygen_result (sample_env None None None None) = None
  /\ bucket_result (sample_env None None None None) = None
  /\ teardown_mirrors_setup (sample_env None None None None)
       "TestApply" "templates/vpc" ∅ true
       (trace_of (sample_env None None None None)
          "TestApply" "templates/vpc" ∅ true).
Proof.
  split; [reflexivity|]. split; [reflexivity|].
  apply (teardown_in_reverse_order (sample_env None None None None)
           "TestApply" "templates/vpc" ∅ true); reflexivity.
Defined.

(** X4.  The retry flag selects the apply operation: with the flag set,
    terraform.Apply is never called; with the flag clear,
    terraform.ApplyWithRetry is never called. *)
Theorem retry_flag_selects_apply
    (env : Externals) (testName templatePath : string) (vars : Vars) :
  count is_plain_apply (trace_of env testName templatePath vars true) = 0
  /\ count is_retry_apply (trace_of env testName templatePath vars false) = 0.
Proof.
  unfold trace_of. rewrite !TerraformApply_exec.
  destruct (keygen_result env) as [e|]; cbn [snd];
    [split; reflexivity|].
  destruct (bucket_result env) as [e|]; cbn [snd];
    [split; reflexivity|].
  split; run_cases env testName templatePath vars; reflexivity.
Qed.

(** X5.  No run calls CreateEC2KeyPair, DeleteEC2KeyPair, the bucket
    check, ConfigureRemoteState, an apply operation or Destroy more than
    once. *)
Theorem remote_calls_at_most_once
    (env : Externals) (testName templatePath : string) (vars : Vars)
    (retry : bool) :
  each_remote_call_at_most_once
    (trace_of env testName templatePath vars retry).
Proof.
  unfold each_remote_call_at_most_once, trace_of.
  rewrite TerraformApply_exec.
  destruct (keygen_result env) as [e|]; cbn [snd];
    [cbn; repeat split; lia|].
  destruct (bucket_result env) as [e|]; cbn [snd];
    [cbn; repeat split; lia|].
  run_cases env testName templatePath vars; destruct retry; cbn;
    repeat split; lia.
Qed.

(** X6.  Once a key pair has been generated, its private key is written
    to the test's log, and the only key ever passed to CreateEC2KeyPair is
    its public key. *)
Theorem private_key_goes_to_log
    (env : Externals) (testName templatePath : string) (vars : Vars)
    (retry : bool) :
  keygen_result env = None ->
  private_key_logged_public_key_uploaded env testName
    (trace_of env testName templatePath vars retry).
Proof.
  intros Hk. unfold private_key_logged_public_key_uploaded, trace_of.
  rewrite TerraformApply_exec, Hk.
  destruct (bucket_result env) as [e|]; cbn [snd].
  - split.
    + cbn. tauto.
    + intros region id key H. cbn in H.
      repeat (destruct H as [H|H]; [try discriminate H|]);
        try contradiction.
      inversion H. reflexivity.
  - split.
    + cbn. tauto.
    + intros region id key H.
      unfold setup_events, keypair_events, configure_events, destroy_events,
        cleanup_events in H.
      destruct (ext_Destroy env templatePath vars (mkLogger testName));
        destruct retry; cbn in H;
        repeat (destruct H as [H|H]; [try discriminate H|]);
        try contradiction; inversion H; reflexivity.
Qed.

(** A successful run. *)
Lemma private_key_goes_to_log_witness :
  keygen_result (sample_env None None None None) = None
  /\ private_key_logged_public_key_uploaded (sample_env None None None None)
       "TestApply"
       (trace_of (sample_env None None None None)
          "TestApply" "templates/vpc" ∅ false).
Proof.
  split; [reflexivity|].
  apply (private_key_goes_to_log (sample_env None None None None)
           "TestApply" "templates/vpc" ∅ false).
  reflexivity.
Defined.


(** X8.  ConfigureRemoteState is called exactly when key generation and
    the bucket check succeeded, and then with the template path, the
    bucket that was checked, its region, and the key made of the run's id
    followed by /main.tf. *)
Theorem remote_state_configured_after_check
    (env : Externals) (testName templatePath : string) (vars : Vars)
    (retry : bool) :
  List.filter is_configure (trace_of env testName templatePath vars retry)
  = match keygen_result env, bucket_result env with
    | None, None =>
      [EvConfigureRemoteState templatePath
         (TF_REMOTE_STATE_S3_BUCKET_NAME env)
         (ext_UniqueId env +:+ "/main.tf")
         (TF_REMOTE_STATE_S3_BUCKET_REGION env) (mkLogger testName)]
    | _, _ => []
    end.
Proof.
  unfold trace_of. rewrite TerraformApply_exec.
  destruct (keygen_result env) as [e|]; cbn [snd]; [reflexivity|].
  destruct (bucket_result env) as [e|]; cbn [snd]; [reflexivity|].
  run_cases env testName templatePath vars; destruct retry; reflexivity.
Qed.

(** X9.  When the apply attempt fails, the returned error carries the
    text of its cause, and the run still calls Destroy once and ends with
    the deletion of the key pair. *)
Theorem apply_failure_still_cleans_up
    (env : Externals) (testName templatePath : string) (vars : Vars)
    (retry : bool) (e : error) :
  keygen_result env = None ->
  bucket_result env = None ->
  apply_result env testName templatePath vars retry = Some e ->
  apply_failure_run env testName templatePath vars retry e.
Proof.
  intros Hk Hb Ha. unfold apply_failure_run, result_of, trace_of.
  rewrite TerraformApply_exec, Hk, Hb, Ha. cbn [fst snd].
  split; [reflexivity|].
  split; run_cases env testName templatePath vars; destruct retry;
    reflexivity.
Qed.

(** A run whose apply exits with status 1 and whose destroy times out. *)
Lemma apply_failure_still_cleans_up_witness :
  keygen_result
    (sample_env None None (Some (errorString "exit status 1"))
       (Some (errorString "timeout"))) = None
  /\ bucket_result
       (sample_env None None (Some (errorString "exit status 1"))
          (Some (errorString "timeout"))) = None
  /\ apply_result
       (sample_env None None (Some (errorString "exit status 1"))
          (Some (errorString "timeout")))
       "TestApply" "templates/vpc" ∅ true
     = Some (errorString "exit status 1")
  /\ apply_failure_run
       (sample_env None None (Some (errorString "exit status 1"))
          (Some (errorString "timeout")))
       "TestApply" "templates/vpc" ∅ true (errorString "exit status 1").
Proof.
  split; [reflexivity|]. split; [reflexivity|]. split; [reflexivity|].
  apply (apply_failure_still_cleans_up
           (sample_env None None (Some (errorString "exit status 1"))
              (Some (errorString "timeout")))
           "TestApply" "templates/vpc" ∅ true (errorString "exit status 1"));
    reflexivity.
Defined.

End MainProps.

(** * Properties of modules/aws/ssm.go *)

Module SsmProps.
Import Ssm.

Section Exec.
Context {api : SsmApi}.
Variables (t : testing_T) (awsRegion keyName : string).
Variables (keyDescription keyValue : string).

(** Symbolic execution of GetParameterE. *)
Lemma GetParameterE_exec (st : St api) :
  GetParameterE t awsRegion keyName st
  = match snd (NewAuthenticatedSession awsRegion) with
    | Some e => (Returned (EmptyString, Some e), st)
    | None =>
      let r := client_GetParameter (get_client awsRegion)
                 (get_input keyName) (world st) in
      let st' := mkSt (snd r)
                   (requests st
                    ++ [ReqGetParameter (get_client awsRegion)
                          (get_input keyName)]) in
      match snd (fst r) with
      | Some e => (Returned (EmptyString, Some e), st')
      | None =>
        match value_of (fst (fst r)) with
        | Some v => (Returned (v, None), st')
        | None => (Panic, st')
        end
      end
    end.
Proof.
  unfold GetParameterE, NewSsmClientE, get_client, get_input, value_of.
  destruct (NewAuthenticatedSession awsRegion) as [sess [e|]];
    [reflexivity|].
  cbn [bind ret fst snd deref sdk_GetParameter].
  unfold bind, sdk_GetParameter.
  destruct (client_GetParameter _ _ (world st)) as [[resp [e|]] w];
    [reflexivity|].
  cbn [fst snd].
  destruct resp as [[[[? ? [v|] ?]|]]|]; reflexivity.
Qed.

(** Symbolic execution of PutParameterE. *)
Lemma PutParameterE_exec (st : St api) :
  PutParameterE t awsRegion keyName keyDescription keyValue st
  = match snd (NewAuthenticatedSession awsRegion) with
    | Some e => (Returned (0%Z, Some e), st)
    | None =>
      let input := put_input keyName keyDescription keyValue in
      let r := client_PutParameter (get_client awsRegion) input
                 (world st) in
      let st' := mkSt (snd r)
                   (requests st
                    ++ [ReqPutParameter (get_client awsRegion) input]) in
      match snd (fst r) with
      | Some e => (Returned (0%Z, Some e), st')
      | None =>
        match version_of (fst (fst r)) with
        | Some v => (Returned (v, None), st')
        | None => (Panic, st')
        end
      end
    end.
Proof.
  unfold PutParameterE, NewSsmClientE, get_client, put_input, version_of.
  destruct (NewAuthenticatedSession awsRegion) as [sess [e|]];
    [reflexivity|].
  cbn [bind ret fst snd deref sdk_PutParameter].
  unfold bind, sdk_PutParameter.
  destruct (client_PutParameter _ _ (world st)) as [[resp [e|]] w];
    [reflexivity|].
  cbn [fst snd].
  destruct resp as [[[v|]]|]; reflexivity.
Qed.

(** The fail-fast variants, in terms of the error-returning ones. *)
Lemma GetParameter_exec (st : St api) :
  GetParameter t awsRegion keyName st
  = match GetParameterE t awsRegion keyName st with
    | (Returned (v, None), st') => (Returned v, st')
    | (Returned (_, Some e), st') => (FailNow t e, st')
    | (FailNow t' e, st') => (FailNow t' e, st')
    | (Panic, st') => (Panic, st')
    end.
Proof.
  unfold GetParameter, bind.
  destruct (GetParameterE t awsRegion keyName st)
    as [[[v [e|]]| |] st']; reflexivity.
Qed.

Lemma PutParameter_exec (st : St api) :
  PutParameter t awsRegion keyName keyDescription keyValue st
  = match PutParameterE t awsRegion keyName keyDescription keyValue st with
    | (Returned (v, None), st') => (Returned v, st')
    | (Returned (_, Some e), st') => (FailNow t e, st')
    | (FailNow t' e, st') => (FailNow t' e, st')
    | (Panic, st') => (Panic, st')
    end.
Proof.
  unfold PutParameter, bind.
  destruct (PutParameterE t awsRegion keyName keyDescription keyValue st)
    as [[[v [e|]]| |] st']; reflexivity.
Qed.

End Exec.

Section Requests.
Context {api : SsmApi}.
Variables (t : testing_T) (awsRegion keyName : string).
Variables (keyDescription keyValue : string).

(** PutParameterE sends nothing if no session can be had, and one
    put-parameter request otherwise. *)
Lemma sent_by_PutParameterE (st : St api) :
  sent_by (PutParameterE t awsRegion keyName keyDescription keyValue) st
  = match snd (NewAuthenticatedSession awsRegion) with
    | Some _ => []
    | None =>
      [ReqPutParameter (get_client awsRegion)
         (put_input keyName keyDescription keyValue)]
    end.
Proof.
  unfold sent_by. rewrite PutParameterE_exec.
  destruct (snd (NewAuthenticatedSession awsRegion)) as [e|]; cbn [snd].
  - apply drop_all.
  - cbv zeta.
    destruct (snd (fst (client_PutParameter _ _ (world st))));
      [|destruct (version_of _)];
      cbn [snd requests]; apply drop_app_length.
Qed.

(** GetParameterE sends nothing if no session can be had, and one
    get-parameter request otherwise. *)
Lemma sent_by_GetParameterE (st : St api) :
  sent_by (GetParameterE t awsRegion keyName) st
  = match snd (NewAuthenticatedSession awsRegion) with
    | Some _ => []
    | None => [ReqGetParameter (get_client awsRegion) (get_input keyName)]
    end.
Proof.
  unfold sent_by. rewrite GetParameterE_exec.
  destruct (snd (NewAuthenticatedSession awsRegion)) as [e|]; cbn [snd].
  - apply drop_all.
  - cbv zeta.
    destruct (snd (fst (client_GetParameter _ _ (world st))));
      [|destruct (value_of _)];
      cbn [snd requests]; apply drop_app_length.
Qed.


End Requests.

(** The reference service honours both assumptions. *)
Lemma ref_read_after_write : @read_after_write ref_api.
Proof.
  intros c input w out w' name value Hput Hn Hv.
  destruct input as [n d v ty].
  cbn [ppi_Name ppi_Value] in Hn, Hv. subst n v.
  cbn [client_PutParameter ref_api] in Hput. unfold ref_put in Hput.
  cbn [ppi_Name ppi_Value ppi_Type ppi_Description] in Hput.
  destruct ty as [ty|]; [|discriminate Hput].
  inversion Hput; subst; clear Hput.
  cbn [client_GetParameter ref_api]. unfold ref_get.
  cbn [gpi_Name gpi_WithDecryption].
  rewrite lookup_insert_eq. cbn [st_type st_value st_version].
  eexists _, _, _. split; [reflexivity|]. split; [reflexivity|].
  cbn [par_Value]. destruct (decide (ty = "SecureString")); reflexivity.
Qed.


(** C4.  Every request that PutParameterE sends is a put-parameter
    request of type SecureString, and every request that GetParameterE
    sends is a get-parameter request with WithDecryption set to true;
    each sends exactly one such request once it has a session, and none
    otherwise. *)
Theorem parameters_always_encrypted {api : SsmApi} (t : testing_T)
    (awsRegion keyName keyDescription keyValue : string) (st : St api) :
  Forall encrypted_write
    (sent_by (PutParameterE t awsRegion keyName keyDescription keyValue) st)
  /\ Forall decrypting_read (sent_by (GetParameterE t awsRegion keyName) st)
  /\ sent_by (PutParameterE t awsRegion keyName keyDescription keyValue) st
     = match snd (NewAuthenticatedSession awsRegion) with
       | Some _ => []
       | None =>
         [ReqPutParameter (ssm_New (fst (NewAuthenticatedSession awsRegion)))
            {| ppi_Name := Some keyName;
               ppi_Description := Some keyDescription;
               ppi_Value := Some keyValue;
               ppi_Type := Some "SecureString" |}]
       end
  /\ sent_by (GetParameterE t awsRegion keyName) st
     = match snd (NewAuthenticatedSession awsRegion) with
       | Some _ => []
       | None =>
         [ReqGetParameter (ssm_New (fst (NewAuthenticatedSession awsRegion)))
            {| gpi_Name := Some keyName; gpi_WithDecryption := Some true |}]
       end.
Proof.
  rewrite sent_by_PutParameterE, sent_by_GetParameterE.
  destruct (snd (NewAuthenticatedSession awsRegion)) as [e|].
  - repeat split; constructor.
  - repeat split; repeat constructor.
Qed.

(** C6.  On a service where a decrypting read that follows an accepted
    write finds the written value, a successful PutParameterE followed,
    with nothing in between, by GetParameterE for the same region and
    key returns the value that was put, without error. *)
Theorem put_get_roundtrip {api : SsmApi} (t t' : testing_T)
    (awsRegion keyName keyDescription keyValue : string)
    (st st1 : St api) (version : Z) :
  read_after_write ->
  PutParameterE t awsRegion keyName keyDescription keyValue st
  = (Returned (version, None), st1) ->
  exists st2,
    GetParameterE t' awsRegion keyName st1
    = (Returned (keyValue, None), st2).
Proof.
  intros Hsvc Hput.
  rewrite PutParameterE_exec in Hput. rewrite GetParameterE_exec.
  destruct (snd (NewAuthenticatedSession awsRegion)) as [e|];
    [discriminate Hput|].
  cbv zeta in Hput |- *.
  destruct (client_PutParameter (get_client awsRegion)
              (put_input keyName keyDescription keyValue) (world st))
    as [[out [e|]] w1] eqn:Hsdk; cbn [fst snd] in Hput;
    [discriminate Hput|].
  destruct (version_of out) as [v|]; [|discriminate Hput].
  inversion Hput; subst; clear Hput. cbn [world].
  destruct (Hsvc _ _ _ _ _ keyName keyValue Hsdk eq_refl eq_refl)
    as (resp & p & w2 & Hget & Hp & Hv).
  unfold get_input. rewrite Hget. cbn [fst snd value_of].
  rewrite Hp, Hv. eexists. reflexivity.
Qed.

(** A password stored in and read back from the reference service. *)
Lemma put_get_roundtrip_witness :
  @read_after_write ref_api
  /\ PutParameterE (mkT "TestSsm") "eu-west-1" "db/password" "the password"
       "s3cr3t" ref_start
     = (Returned (1%Z, None),
        snd (PutParameterE (mkT "TestSsm") "eu-west-1" "db/password"
               "the password" "s3cr3t" ref_start))
  /\ exists st2,
       GetParameterE (mkT "TestSsm") "eu-west-1" "db/password"
         (snd (PutParameterE (mkT "TestSsm") "eu-west-1" "db/password"
                 "the password" "s3cr3t" ref_start))
       = (Returned ("s3cr3t", None), st2).
Proof.
  split; [exact ref_read_after_write|]. split; [reflexivity|].
  apply (put_get_roundtrip (api := ref_api) (mkT "TestSsm") (mkT "TestSsm")
           "eu-west-1" "db/password" "the password" "s3cr3t" ref_start
           _ 1%Z ref_read_after_write).
  reflexivity.
Defined.

(** C7.  Where GetParameterE (PutParameterE) returns a value and a nil
    error, GetParameter (PutParameter) returns that value in the same
    final state; where the E variant returns an error, the other one
    fails the running test with that error and does not return. *)
Theorem fail_fast_refines_E {api : SsmApi} (t : testing_T)
    (awsRegion keyName keyDescription keyValue : string) (st : St api) :
  (forall v st',
      GetParameterE t awsRegion keyName st = (Returned (v, None), st') ->
      GetParameter t awsRegion keyName st = (Returned v, st'))
  /\ (forall v e st',
        GetParameterE t awsRegion keyName st = (Returned (v, Some e), st') ->
        GetParameter t awsRegion keyName st = (FailNow t e, st'))
  /\ (forall v st',
        PutParameterE t awsRegion keyName keyDescription keyValue st
        = (Returned (v, None), st') ->
        PutParameter t awsRegion keyName keyDescription keyValue st
        = (Returned v, st'))
  /\ (forall v e st',
        PutParameterE t awsRegion keyName keyDescription keyValue st
        = (Returned (v, Some e), st') ->
        PutParameter t awsRegion keyName keyDescription keyValue st
        = (FailNow t e, st')).
Proof.
  repeat split; intros; rewrite ?GetParameter_exec, ?PutParameter_exec;
    match goal with H : _ = _ |- _ => rewrite H end; reflexivity.
Qed.

(** The four cases on the reference service: a stored and a missing
    parameter for the get, a valid and an empty region for the put. *)
Lemma fail_fast_refines_E_witness :
  (GetParameterE sample_t "eu-west-1" "db/password" ref_stored
   = (Returned ("s3cr3t", None),
      snd (GetParameterE sample_t "eu-west-1" "db/password" ref_stored))
   /\ GetParameter sample_t "eu-west-1" "db/password" ref_stored
      = (Returned "s3cr3t",
         snd (GetParameterE sample_t "eu-west-1" "db/password" ref_stored)))
  /\ (GetParameterE sample_t "eu-west-1" "db/password" ref_start
      = (Returned (EmptyString, Some (errorString "ParameterNotFound")),
         snd (GetParameterE sample_t "eu-west-1" "db/password" ref_start))
      /\ GetParameter sample_t "eu-west-1" "db/password" ref_start
         = (FailNow sample_t (errorString "ParameterNotFound"),
            snd (GetParameterE sample_t "eu-west-1" "db/password"
                   ref_start)))
  /\ (PutParameterE sample_t "eu-west-1" "db/password" "the password"
        "s3cr3t" ref_start
      = (Returned (1%Z, None), ref_stored)
      /\ PutParameter sample_t "eu-west-1" "db/password" "the password"
           "s3cr3t" ref_start
         = (Returned 1%Z, ref_stored))
  /\ (PutParameterE sample_t EmptyString "db/password" "the password"
        "s3cr3t" ref_start
      = (Returned (0%Z, Some (errorString "MissingRegion")), ref_start)
      /\ PutParameter sample_t EmptyString "db/password" "the password"
           "s3cr3t" ref_start
         = (FailNow sample_t (errorString "MissingRegion"), ref_start)).
Proof.
  split; [|split; [|split]]; (split; [reflexivity|]).
  - apply (proj1 (fail_fast_refines_E (api := ref_api) sample_t
                    "eu-west-1" "db/password" "the password" "s3cr3t"
                    ref_stored)).
    reflexivity.
  - apply (proj1 (proj2 (fail_fast_refines_E (api := ref_api) sample_t
                           "eu-west-1" "db/password" "the password"
                           "s3cr3t" ref_start))
             EmptyString).
    reflexivity.
  - apply (proj1 (proj2 (proj2 (fail_fast_refines_E (api := ref_api)
                                  sample_t "eu-west-1" "db/password"
                                  "the password" "s3cr3t" ref_start)))).
    reflexivity.
  - apply (proj2 (proj2 (proj2 (fail_fast_refines_E (api := ref_api)
                                  sample_t EmptyString "db/password"
                                  "the password" "s3cr3t" ref_start)))
             0%Z).
    reflexivity.
Defined.

(** C8.  An error from GetParameterE comes with the empty string, an
    error from PutParameterE with version 0. *)
Theorem error_results_carry_zero {api : SsmApi} (t : testing_T)
    (awsRegion keyName keyDescription keyValue : string) (st : St api) :
  (forall v e st',
      GetParameterE t awsRegion keyName st = (Returned (v, Some e), st') ->
      v = EmptyString)
  /\ (forall v e st',
        PutParameterE t awsRegion keyName keyDescription keyValue st
        = (Returned (v, Some e), st') ->
        v = 0%Z).
Proof.
  split; intros v e st' H.
  - rewrite GetParameterE_exec in H. cbv zeta in H.
    destruct (snd (NewAuthenticatedSession awsRegion));
      [congruence|].
    destruct (snd (fst (client_GetParameter _ _ (world st))));
      [congruence|].
    destruct (value_of _); congruence.
  - rewrite PutParameterE_exec in H. cbv zeta in H.
    destruct (snd (NewAuthenticatedSession awsRegion));
      [congruence|].
    destruct (snd (fst (client_PutParameter _ _ (world st))));
      [congruence|].
    destruct (version_of _); congruence.
Qed.

(** A get of a missing parameter and a put without a region. *)
Lemma error_results_carry_zero_witness :
  (GetParameterE sample_t "eu-west-1" "db/password" ref_start
   = (Returned
        (payload "?"
           (GetParameterE sample_t "eu-west-1" "db/password" ref_start),
         Some (errorString "ParameterNotFound")),
      snd (GetParameterE sample_t "eu-west-1" "db/password" ref_start))
   /\ payload "?"
        (GetParameterE sample_t "eu-west-1" "db/password" ref_start)
      = EmptyString)
  /\ (PutParameterE sample_t EmptyString "db/password" "the password"
        "s3cr3t" ref_start
      = (Returned
           (payload 7%Z
              (PutParameterE sample_t EmptyString "db/password"
                 "the password" "s3cr3t" ref_start),
            Some (errorString "MissingRegion")),
         ref_start)
      /\ payload 7%Z
           (PutParameterE sample_t EmptyString "db/password"
              "the password" "s3cr3t" ref_start)
         = 0%Z).
Proof.
  split; (split; [reflexivity|]).
  - apply (proj1 (error_results_carry_zero (api := ref_api) sample_t
                    "eu-west-1" "db/password" "the password" "s3cr3t"
                    ref_start)
             _ (errorString "ParameterNotFound")
             (snd (GetParameterE sample_t "eu-west-1" "db/password"
                     ref_start))).
    reflexivity.
  - apply (proj2 (error_results_carry_zero (api := ref_api) sample_t
                    EmptyString "db/password" "the password" "s3cr3t"
                    ref_start)
             _ (errorString "MissingRegion") ref_start).
    reflexivity.
Defined.



(** Without that assumption the panic is reachable: the hollow service
    answers without error and without a Parameter. *)
Example GetParameterE_hollow_panics :
  fst (GetParameterE (api := hollow_api) (mkT "TestSsm") "eu-west-1"
         "db/password" (@mkSt hollow_api tt []))
  = Panic.
Proof. reflexivity. Qed.

(** ** Further properties of the accessors and of the client factory *)

Lemma ref_versions_populated : @versions_populated ref_api.
Proof.
  intros c input w resp w' Hput.
  cbn [client_PutParameter ref_api] in Hput. unfold ref_put in Hput.
  destruct (ppi_Name input), (ppi_Value input), (ppi_Type input);
    try discriminate Hput.
  inversion Hput; subst; clear Hput.
  eexists _, _. split; reflexivity.
Qed.

Section Factory.
Context {api : SsmApi}.
Variables (t : testing_T) (region : string).

Lemma NewSsmClientE_exec (st : St api) :
  NewSsmClientE t region st
  = (Returned
       match snd (NewAuthenticatedSession region) with
       | Some e => (None, Some e)
       | None => (Some (get_client region), None)
       end, st).
Proof.
  unfold NewSsmClientE, get_client.
  destruct (NewAuthenticatedSession region) as [sess [e|]]; reflexivity.
Qed.

Lemma NewSsmClient_exec (st : St api) :
  NewSsmClient t region st
  = match snd (NewAuthenticatedSession region) with
    | Some e => (FailNow t e, st)
    | None => (Returned (Some (get_client region)), st)
    end.
Proof.
  unfold NewSsmClient, bind. rewrite NewSsmClientE_exec.
  destruct (snd (NewAuthenticatedSession region)); reflexivity.
Qed.

End Factory.

(** X10.  NewSsmClientE always returns, leaves the log and the service
    untouched, hands on the error of the session creation as it is, and
    returns a nil client exactly when that error is non-nil. *)
Theorem NewSsmClientE_client_xor_error {api : SsmApi} (t : testing_T)
    (region : string) (st : St api) :
  exists c,
    NewSsmClientE t region st
    = (Returned (c, snd (NewAuthenticatedSession region)), st)
    /\ (c = None <-> snd (NewAuthenticatedSession region) <> None).
Proof.
  rewrite NewSsmClientE_exec.
  destruct (snd (NewAuthenticatedSession region)) as [e|].
  - exists None. split; [reflexivity|]. split; [discriminate | reflexivity].
  - exists (Some (get_client region)). split; [reflexivity|].
    split; [discriminate | intros H; contradiction H; reflexivity].
Qed.

(** X11.  NewSsmClient never returns a nil client: it returns the client
    of the region when a session can be created, and fails the running
    test with the session error otherwise; in both cases the log and the
    service are untouched. *)
Theorem NewSsmClient_client_or_failure {api : SsmApi} (t : testing_T)
    (region : string) (st : St api) :
  (forall c st',
      NewSsmClient t region st = (Returned c, st') ->
      c = Some (get_client region) /\ st' = st)
  /\ (forall e,
        snd (NewAuthenticatedSession region) = Some e ->
        NewSsmClient t region st = (FailNow t e, st))
  /\ (snd (NewAuthenticatedSession region) = None ->
      NewSsmClient t region st = (Returned (Some (get_client region)), st)).
Proof.
  rewrite NewSsmClient_exec.
  destruct (snd (NewAuthenticatedSession region)) as [e0|].
  - split; [intros c st' H; discriminate H|].
    split; [intros e H; inversion H; reflexivity | discriminate].
  - split; [intros c st' H; inversion H; split; reflexivity|].
    split; [discriminate | reflexivity].
Qed.

(** The reference service with and without a region. *)
Lemma NewSsmClient_client_or_failure_witness :
  (NewSsmClient sample_t "eu-west-1" ref_start
   = (Returned (Some "eu-west-1"), ref_start)
   /\ Some "eu-west-1" = Some (get_client (api := ref_api) "eu-west-1")
      /\ ref_start = ref_start)
  /\ (snd (NewAuthenticatedSession (SsmApi := ref_api) EmptyString)
      = Some (errorString "MissingRegion")
      /\ NewSsmClient sample_t EmptyString ref_start
         = (FailNow sample_t (errorString "MissingRegion"), ref_start))
  /\ (snd (NewAuthenticatedSession (SsmApi := ref_api) "eu-west-1") = None
      /\ NewSsmClient sample_t "eu-west-1" ref_start
         = (Returned (Some (get_client (api := ref_api) "eu-west-1")),
            ref_start)).
Proof.
  split; [|split]; (split; [reflexivity|]).
  - apply (proj1 (NewSsmClient_client_or_failure (api := ref_api) sample_t
                    "eu-west-1" ref_start)).
    reflexivity.
  - apply (proj1 (proj2 (NewSsmClient_client_or_failure (api := ref_api)
                           sample_t EmptyString ref_start))).
    reflexivity.
  - apply (proj2 (proj2 (NewSsmClient_client_or_failure (api := ref_api)
                           sample_t "eu-west-1" ref_start))).
    reflexivity.
Defined.

(** X12.  PutParameterE dereferences the response and its Version
    without a nil check; if every put-parameter response without error
    carries a version, PutParameterE never panics. *)
Theorem populated_versions_no_panic {api : SsmApi} (t : testing_T)
    (awsRegion keyName keyDescription keyValue : string) (st : St api) :
  versions_populated ->
  is_panic (fst (PutParameterE t awsRegion keyName keyDescription keyValue st))
  = false.
Proof.
  intros Hpop. rewrite PutParameterE_exec. cbv zeta.
  destruct (snd (NewAuthenticatedSession awsRegion)) as [e|];
    [reflexivity|].
  destruct (client_PutParameter (get_client awsRegion)
              (put_input keyName keyDescription keyValue) (world st))
    as [[resp [e|]] w] eqn:Hsdk; cbn [fst snd]; [reflexivity|].
  destruct (Hpop _ _ _ _ _ Hsdk) as (out & v & -> & Hv).
  cbn [version_of]. rewrite Hv. reflexivity.
Qed.

(** The reference service always answers with a version. *)
Lemma populated_versions_no_panic_witness :
  @versions_populated ref_api
  /\ is_panic (fst (PutParameterE sample_t "eu-west-1" "db/password"
                      "the password" "s3cr3t" ref_start)) = false.
Proof.
  split; [exact ref_versions_populated|].
  apply (populated_versions_no_panic (api := ref_api) sample_t "eu-west-1"
           "db/password" "the password" "s3cr3t" ref_start
           ref_versions_populated).
Defined.

(** X13.  The accessors do not wrap errors: an error returned by
    GetParameterE or PutParameterE is the error of the session creation
    or the error of the SDK call, as it was. *)
Theorem errors_passed_through_verbatim {api : SsmApi} (t : testing_T)
    (awsRegion keyName keyDescription keyValue : string) (st : St api) :
  (forall v e st',
      GetParameterE t awsRegion keyName st = (Returned (v, Some e), st') ->
      snd (NewAuthenticatedSession awsRegion) = Some e
      \/ snd (fst (client_GetParameter (get_client awsRegion)
                     (get_input keyName) (world st))) = Some e)
  /\ (forall v e st',
        PutParameterE t awsRegion keyName keyDescription keyValue st
        = (Returned (v, Some e), st') ->
        snd (NewAuthenticatedSession awsRegion) = Some e
        \/ snd (fst (client_PutParameter (get_client awsRegion)
                       (put_input keyName keyDescription keyValue)
                       (world st))) = Some e).
Proof.
  split; intros v e st' H.
  - rewrite GetParameterE_exec in H. cbv zeta in H.
    destruct (snd (NewAuthenticatedSession awsRegion));
      [left; congruence|].
    destruct (snd (fst (client_GetParameter _ _ (world st))));
      [right; congruence|].
    destruct (value_of _); discriminate H.
  - rewrite PutParameterE_exec in H. cbv zeta in H.
    destruct (snd (NewAuthenticatedSession awsRegion));
      [left; congruence|].
    destruct (snd (fst (client_PutParameter _ _ (world st))));
      [right; congruence|].
    destruct (version_of _); discriminate H.
Qed.

(** A get of a missing parameter and a put without a region. *)
Lemma errors_passed_through_verbatim_witness :
  (GetParameterE sample_t "eu-west-1" "db/password" ref_start
   = (Returned (EmptyString, Some (errorString "ParameterNotFound")),
      snd (GetParameterE sample_t "eu-west-1" "db/password" ref_start))
   /\ (snd (NewAuthenticatedSession (SsmApi := ref_api) "eu-west-1")
       = Some (errorString "ParameterNotFound")
       \/ snd (fst (client_GetParameter (SsmApi := ref_api)
                      (get_client "eu-west-1") (get_input "db/password")
                      (world ref_start)))
          = Some (errorString "ParameterNotFound")))
  /\ (PutParameterE sample_t EmptyString "db/password" "the password"
        "s3cr3t" ref_start
      = (Returned (0%Z, Some (errorString "MissingRegion")), ref_start)
      /\ (snd (NewAuthenticatedSession (SsmApi := ref_api) EmptyString)
          = Some (errorString "MissingRegion")
          \/ snd (fst (client_PutParameter (SsmApi := ref_api)
                         (get_client EmptyString)
                         (put_input "db/password" "the password" "s3cr3t")
                         (world ref_start)))
             = Some (errorString "MissingRegion"))).
Proof.
  split; (split; [reflexivity|]).
  - apply (proj1 (errors_passed_through_verbatim (api := ref_api) sample_t
                    "eu-west-1" "db/password" "the password" "s3cr3t"
                    ref_start)
             EmptyString (errorString "ParameterNotFound")
             (snd (GetParameterE sample_t "eu-west-1" "db/password"
                     ref_start))).
    reflexivity.
  - apply (proj2 (errors_passed_through_verbatim (api := ref_api) sample_t
                    EmptyString "db/password" "the password" "s3cr3t"
                    ref_start)
             0%Z (errorString "MissingRegion") ref_start).
    reflexivity.
Defined.

(** X14.  When no session can be created, none of the four accessors
    contacts the service: the log and the service are left as they were;
    the E variants return the session error with the zero payload, the
    others fail the running test with it. *)
Theorem no_session_no_request {api : SsmApi} (t : testing_T)
    (awsRegion keyName keyDescription keyValue : string) (st : St api)
    (e : error) :
  snd (NewAuthenticatedSession awsRegion) = Some e ->
  GetParameterE t awsRegion keyName st = (Returned (EmptyString, Some e), st)
  /\ PutParameterE t awsRegion keyName keyDescription keyValue st
     = (Returned (0%Z, Some e), st)
  /\ GetParameter t awsRegion keyName st = (FailNow t e, st)
  /\ PutParameter t awsRegion keyName keyDescription keyValue st
     = (FailNow t e, st).
Proof.
  intros Hs.
  rewrite GetParameter_exec, PutParameter_exec, GetParameterE_exec,
    PutParameterE_exec, Hs.
  repeat split; reflexivity.
Qed.

(** The reference service without a region. *)
Lemma no_session_no_request_witness :
  snd (NewAuthenticatedSession (SsmApi := ref_api) EmptyString)
  = Some (errorString "MissingRegion")
  /\ GetParameterE sample_t EmptyString "db/password" ref_stored
     = (Returned (EmptyString, Some (errorString "MissingRegion")), ref_stored)
  /\ PutParameterE sample_t EmptyString "db/password" "the password"
       "s3cr3t" ref_stored
     = (Returned (0%Z, Some (errorString "MissingRegion")), ref_stored)
  /\ GetParameter sample_t EmptyString "db/password" ref_stored
     = (FailNow sample_t (errorString "MissingRegion"), ref_stored)
  /\ PutParameter sample_t EmptyString "db/password" "the password"
       "s3cr3t" ref_stored
     = (FailNow sample_t (errorString "MissingRegion"), ref_stored).
Proof.
  split; [reflexivity|].
  apply (no_session_no_request (api := ref_api) sample_t EmptyString
           "db/password" "the password" "s3cr3t" ref_stored
           (errorString "MissingRegion")).
  reflexivity.
Defined.

(** X15.  A fail-fast accessor leaves the log and the service exactly as
    its E variant does, whatever the outcome. *)
Theorem fail_fast_same_effect {api : SsmApi} (t : testing_T)
    (awsRegion keyName keyDescription keyValue : string) (st : St api) :
  snd (GetParameter t awsRegion keyName st)
  = snd (GetParameterE t awsRegion keyName st)
  /\ snd (PutParameter t awsRegion keyName keyDescription keyValue st)
     = snd (PutParameterE t awsRegion keyName keyDescription keyValue st).
Proof.
  rewrite GetParameter_exec, PutParameter_exec.
  destruct (GetParameterE t awsRegion keyName st) as [[[v [e|]]| |] st1],
           (PutParameterE t awsRegion keyName keyDescription keyValue st)
             as [[[n [e'|]]| |] st2];
    split; reflexivity.
Qed.

(** X16.  The E variants never fail the running test: whatever the
    service answers, GetParameterE and PutParameterE do not end in
    FailNow. *)
Theorem E_variants_never_fail_the_test {api : SsmApi} (t : testing_T)
    (awsRegion keyName keyDescription keyValue : string) (st : St api) :
  is_fail_now (fst (GetParameterE t awsRegion keyName st)) = false
  /\ is_fail_now
       (fst (PutParameterE t awsRegion keyName keyDescription keyValue st))
     = false.
Proof.
  rewrite GetParameterE_exec, PutParameterE_exec. cbv zeta.
  destruct (snd (NewAuthenticatedSession awsRegion)); [split; reflexivity|].
  split.
  - destruct (snd (fst (client_GetParameter _ _ (world st))));
      [|destruct (value_of _)]; reflexivity.
  - destruct (snd (fst (client_PutParameter _ _ (world st))));
      [|destruct (version_of _)]; reflexivity.
Qed.

(** X17.  GetParameterE returns a value without error exactly when a
    session could be created and the SDK answered, without error, a
    response whose parameter holds that value; the value is returned as
    it is, the request is added to the log and the service is left as the
    SDK call left it. *)
Theorem GetParameterE_success_iff {api : SsmApi} (t : testing_T)
    (awsRegion keyName : string) (st st' : St api) (v : string) :
  GetParameterE t awsRegion keyName st = (Returned (v, None), st')
  <-> snd (NewAuthenticatedSession awsRegion) = None
      /\ snd (fst (client_GetParameter (get_client awsRegion)
                     (get_input keyName) (world st))) = None
      /\ value_of (fst (fst (client_GetParameter (get_client awsRegion)
                               (get_input keyName) (world st)))) = Some v
      /\ st' = after_request st
                 (ReqGetParameter (get_client awsRegion) (get_input keyName))
                 (client_GetParameter (get_client awsRegion)
                    (get_input keyName) (world st)).
Proof.
  rewrite GetParameterE_exec. cbv zeta. unfold after_request.
  destruct (snd (NewAuthenticatedSession awsRegion)) as [e|].
  { split; [discriminate | intros [H _]; discriminate H]. }
  destruct (snd (fst (client_GetParameter _ _ (world st)))) as [e|].
  { split; [discriminate | intros (_ & H & _); discriminate H]. }
  destruct (value_of _) as [v0|].
  - split.
    + intros H. inversion H. repeat split; reflexivity.
    + intros (_ & _ & Hv & ->). inversion Hv. reflexivity.
  - split; [discriminate | intros (_ & _ & H & _); discriminate H].
Qed.

(** X18.  PutParameterE returns a version without error exactly when a
    session could be created and the SDK answered, without error, a
    response that holds that version; the version is returned as it is,
    the request is added to the log and the service is left as the SDK
    call left it. *)
Theorem PutParameterE_success_iff {api : SsmApi} (t : testing_T)
    (awsRegion keyName keyDescription keyValue : string) (st st' : St api)
    (v : Z) :
  PutParameterE t awsRegion keyName keyDescription keyValue st
  = (Returned (v, None), st')
  <-> snd (NewAuthenticatedSession awsRegion) = None
      /\ snd (fst (client_PutParameter (get_client awsRegion)
                     (put_input keyName keyDescription keyValue)
                     (world st))) = None
      /\ version_of (fst (fst (client_PutParameter (get_client awsRegion)
                                 (put_input keyName keyDescription keyValue)
                                 (world st)))) = Some v
      /\ st' = after_request st
                 (ReqPutParameter (get_client awsRegion)
                    (put_input keyName keyDescription keyValue))
                 (client_PutParameter (get_client awsRegion)
                    (put_input keyName keyDescription keyValue) (world st)).
Proof.
  rewrite PutParameterE_exec. cbv zeta. unfold after_request.
  destruct (snd (NewAuthenticatedSession awsRegion)) as [e|].
  { split; [discriminate | intros [H _]; discriminate H]. }
  destruct (snd (fst (client_PutParameter _ _ (world st)))) as [e|].
  { split; [discriminate | intros (_ & H & _); discriminate H]. }
  destruct (version_of _) as [v0|].
  - split.
    + intros H. inversion H. repeat split; reflexivity.
    + intros (_ & _ & Hv & ->). inversion Hv. reflexivity.
  - split; [discriminate | intros (_ & _ & H & _); discriminate H].
Qed.

(** X19.  On a service where a decrypting read that follows an accepted
    write finds the written value, a PutParameter that returns followed,
    with nothing in between, by GetParameter for the same region and key
    returns the value that was put: the test is not failed and nothing
    panics. *)
Theorem fail_fast_put_get_roundtrip {api : SsmApi} (t t' : testing_T)
    (awsRegion keyName keyDescription keyValue : string)
    (st st1 : St api) (version : Z) :
  read_after_write ->
  PutParameter t awsRegion keyName keyDescription keyValue st
  = (Returned version, st1) ->
  exists st2,
    GetParameter t' awsRegion keyName st1 = (Returned keyValue, st2).
Proof.
  intros Hsvc Hput.
  rewrite PutParameter_exec, PutParameterE_exec in Hput.
  rewrite GetParameter_exec, GetParameterE_exec.
  destruct (snd (NewAuthenticatedSession awsRegion)) as [e|];
    [discriminate Hput|].
  cbv zeta in Hput |- *.
  destruct (client_PutParameter (get_client awsRegion)
              (put_input keyName keyDescription keyValue) (world st))
    as [[out [e|]] w1] eqn:Hsdk; cbn [fst snd] in Hput;
    [discriminate Hput|].
  destruct (version_of out) as [v|]; [|discriminate Hput].
  inversion Hput; subst; clear Hput. cbn [world].
  destruct (Hsvc _ _ _ _ _ keyName keyValue Hsdk eq_refl eq_refl)
    as (resp & p & w2 & Hget & Hp & Hv).
  unfold get_input. rewrite Hget. cbn [fst snd value_of].
  rewrite Hp, Hv. eexists. reflexivity.
Qed.

(** A password stored in and read back from the reference service. *)
Lemma fail_fast_put_get_roundtrip_witness :
  @read_after_write ref_api
  /\ PutParameter sample_t "eu-west-1" "db/password" "the password"
       "s3cr3t" ref_start
     = (Returned 1%Z, ref_stored)
  /\ exists st2,
       GetParameter sample_t "eu-west-1" "db/password" ref_stored
       = (Returned "s3cr3t", st2).
Proof.
  split; [exact ref_read_after_write|]. split; [reflexivity|].
  apply (fail_fast_put_get_roundtrip (api := ref_api) sample_t sample_t
           "eu-west-1" "db/password" "the password" "s3cr3t" ref_start
           ref_stored 1%Z ref_read_after_write).
  reflexivity.
Defined.

End SsmProps.
